(** * OCI Data Science MCP server: the tool handlers of [server.py]

    A shallow embedding of the six tool handlers registered by
    [server.py] with the FastMCP dispatcher, and the properties of
    their marshalling, failure policy and frame.

    The handlers are pass-throughs to three third-party libraries: the
    OCI SDK ([oci]), the Accelerated Data Science SDK ([ads]) and
    [pandas].  The two SDKs talk to the remote service; they are taken
    as a [Backend]: one response (a value or a raised exception) for
    each call a handler can make.  The part of [pandas] the handlers
    use is modelled in [Module Pandas]. *)

From stdpp Require Import base option list strings gmap.

(** ** Python values and exceptions *)

(** [oci.data_science.models.NotebookSessionShapeConfigDetails] *)
Record NotebookSessionShapeConfigDetails := {
  ocpus : Z;
  memory_in_gbs : Z;
}.

(** [oci.data_science.models.NotebookSessionConfigDetails] *)
Record NotebookSessionConfigDetails := {
  shape : string;
  block_storage_size_in_gbs : Z;
  notebook_session_shape_config_details : NotebookSessionShapeConfigDetails;
}.

(** The values the handlers put into the mappings they return. *)
Inductive pyval :=
| PyNone
| PyStr (s : string)
| PyInt (n : Z)
| PyDatetime (t : Z)
| PyConfig (c : NotebookSessionConfigDetails).

(** An attribute the SDK declares as [str] holds a string or [None]. *)
Definition py_of_attr (a : option string) : pyval :=
  match a with
  | Some s => PyStr s
  | None => PyNone
  end.

(** An instance of [Exception], which is what the SDK raises and what
    [except Exception] catches: its class and [str(e)]. *)
Record exn := {
  exc_type : string;
  exc_str : string;
}.

Inductive result (A : Type) :=
| Ret (a : A)
| Raise (e : exn).
Arguments Ret {A} a.
Arguments Raise {A} e.

(** What a listing call of the SDK answers: a list, or [None] when the
    compartment holds nothing to list. *)
Definition listing (A : Type) : Type := option (list A).

(** The [TypeError] of [len(None)]. *)
Definition no_len : exn :=
  {| exc_type := "TypeError"; exc_str := "object of type 'NoneType' has no len()" |}.

(** [len(x)] on the answer of a listing call. *)
Definition py_len {A} (x : listing A) : result nat :=
  match x with
  | Some l => Ret (length l)
  | None => Raise no_len
  end.

(** ** The part of pandas used by the handlers *)

Module Pandas.

(** A row label: [RangeIndex] gives integers, other indexes strings. *)
Inductive label :=
| LInt (i : Z)
| LStr (s : string).

#[global] Instance label_eq_dec : EqDecision label.
Proof. solve_decision. Defined.

#[global] Instance label_countable : Countable label.
Proof.
  refine (inj_countable'
            (λ l, match l with LInt i => inl i | LStr s => inr s end)
            (λ x, match x with inl i => LInt i | inr s => LStr s end) _).
  by intros [].
Defined.

(** A frame: the row labels and the columns in order, each column
    with the cells of all rows. *)
Record DataFrame := {
  index : list label;
  columns : list (string * list pyval);
}.

Definition RangeIndex (n : nat) : list label :=
  (λ i, LInt (Z.of_nat i)) <$> seq 0 n.

(** [pd.DataFrame(data)] for a dict of lists, in the dict's order:
    all lists need the same length. *)
Definition DataFrame_of_dict (data : list (string * list pyval)) : result DataFrame :=
  match data with
  | [] => Ret {| index := []; columns := [] |}
  | (_, c0) :: rest =>
      if forallb (λ kc, Nat.eqb (length kc.2) (length c0)) rest
      then Ret {| index := RangeIndex (length c0); columns := data |}
      else Raise {| exc_type := "ValueError";
                    exc_str := "All arrays must be of the same length" |}
  end.

(** [dict(pairs)]: a later pair with the same key replaces an earlier one. *)
Definition dict_of_pairs `{Countable K} {V} (pairs : list (K * V)) : gmap K V :=
  foldl (λ d kv, <[kv.1 := kv.2]> d) ∅ pairs.

(** The cells of row [i], each with its column name. *)
Definition row_cells (df : DataFrame) (i : nat) : list (string * pyval) :=
  omap (λ kc, (λ v, (kc.1, v)) <$> kc.2 !! i) (columns df).

(** [df.to_dict('records')]: one dict per row, in row order. *)
Definition to_dict_records (df : DataFrame) : list (gmap string pyval) :=
  (λ i, dict_of_pairs (row_cells df i)) <$> seq 0 (length (index df)).

(** One column as a dict from row label to cell. *)
Definition dict_of_column (idx : list label) (cells : list pyval) : gmap label pyval :=
  dict_of_pairs (zip idx cells).

(** [df.to_dict()]: column name to (row label to cell). *)
Definition to_dict (df : DataFrame) : gmap string (gmap label pyval) :=
  dict_of_pairs ((λ kc, (kc.1, dict_of_column (index df) kc.2)) <$> columns df).

(** The cell in column [col] at row [l], for a frame whose column
    names and row labels are unique. *)
Definition cell (df : DataFrame) (col : string) (l : label) : option pyval :=
  cells ← (list_find (λ kc, kc.1 = col) (columns df));
  i ← (list_find (λ l', l' = l) (index df));
  cells.2.2 !! i.1.

Definition unique_labels (df : DataFrame) : Prop :=
  NoDup (columns df).*1 ∧ NoDup (index df).

End Pandas.

(** ** The SDK objects the handlers touch

    An object is the record of the attributes the handlers read and of
    the responses of the methods they call. *)

Module Oci.

(** The signer of [oci.auth.signers.get_resource_principals_signer()]. *)
Record Signer := {
  compartment_id : string;
}.

(** [oci.identity.IdentityClient]: built and never used. *)
Inductive IdentityClient :=
| IdentityClient_obj.

(** [oci.data_science.models.CreateNotebookSessionDetails] *)
Record CreateNotebookSessionDetails := {
  req_project_id : string;
  req_compartment_id : string;
  req_display_name : string;
  req_notebook_session_config_details : NotebookSessionConfigDetails;
}.

(** [oci.data_science.models.NotebookSession], the attributes read. *)
Record NotebookSession := {
  notebook_session_url : option string;
  display_name : option string;
  time_created : Z;
  notebook_session_config_details : NotebookSessionConfigDetails;
}.

Record Response := {
  data : NotebookSession;
}.

(** [oci.data_science.DataScienceClient] *)
Record DataScienceClient := {
  create_notebook_session : CreateNotebookSessionDetails → result Response;
}.

End Oci.

Module Ads.

(** An entry of the list [ProjectCatalog.list_projects()] returns. *)
Record ProjectSummary := {
  id : option string;
  display_name : option string;
  description : option string;
}.

(** The object [ProjectCatalog.create_project] returns. *)
Record Project := {
  to_dataframe : result Pandas.DataFrame;
}.

(** [ads.catalog.project.ProjectCatalog]; [len] is [__len__]. *)
Record ProjectCatalog := {
  list_projects : result (listing ProjectSummary);
  len : result nat;
  create_project : string → string → string → result Project;
}.

(** The SDK computes [__len__] as [len(self.list_projects())]: with a
    listing call that answers again as it did, that is the length of
    the listing, and the [TypeError] of [len(None)] when there is
    nothing to list. *)
Definition len_of_listing (cat : ProjectCatalog) : result nat :=
  match list_projects cat with
  | Ret x => py_len x
  | Raise e => Raise e
  end.

Record ModelSummary := {
  model_id : option string;
}.

(** [ads.catalog.model.ModelCatalog] *)
Record ModelCatalog := {
  list_models : result (listing ModelSummary);
}.

End Ads.

(** What the SDK constructors answer.  The ADS catalogs authenticate
    with the mode [ads.set_auth] selected, the OCI clients with the
    signer they are given. *)
Record Backend := {
  get_resource_principals_signer : result Oci.Signer;
  IdentityClient : Oci.Signer → result Oci.IdentityClient;
  DataScienceClient : Oci.Signer → result Oci.DataScienceClient;
  ProjectCatalog : option string → string → result Ads.ProjectCatalog;
  ModelCatalog : option string → string → result Ads.ModelCatalog;
}.

(** ** The process: output streams, SDK calls issued, module globals *)

(** The calls into the SDK, with the arguments the handler passes. *)
Inductive sdk_call :=
| Call_get_resource_principals_signer
| Call_IdentityClient (signer : Oci.Signer)
| Call_DataScienceClient (signer : Oci.Signer)
| Call_create_notebook_session (details : Oci.CreateNotebookSessionDetails)
| Call_ProjectCatalog (compartment_id : string)
| Call_list_projects
| Call_len_ProjectCatalog
| Call_create_project (display_name description compartment_id : string)
| Call_to_dataframe
| Call_ModelCatalog (compartment_id : string)
| Call_list_models.

(** A call and the exception it raised, if any. *)
Record sdk_event := {
  ev_call : sdk_call;
  ev_raised : option exn;
}.

(** A record handed to [logger]; the handler installed in the
    [logging] module writes each as one line, prefixed with the
    time. *)
Record log_record := {
  levelname : string;
  message : string;
}.

(** The lines printed, the records logged, the SDK calls issued (oldest
    first) and the authentication mode of [ads], the one module-level
    setting the handlers share. *)
Record world := {
  stdout : list string;
  stderr : list log_record;
  calls : list sdk_event;
  ads_auth : option string;
}.

(** ** Computations: state passing with exceptions *)

Definition M (A : Type) : Type := world → result A * world.

#[global] Instance M_ret : MRet M := λ A a w, (Ret a, w).

#[global] Instance M_bind : MBind M := λ A B f m w,
  match m w with
  | (Ret a, w') => f a w'
  | (Raise e, w') => (Raise e, w')
  end.

Definition raise {A} (e : exn) : M A := λ w, (Raise e, w).

(** [try: body / except Exception as e: handler e] *)
Definition try_except {A} (body : M A) (handler : exn → M A) : M A := λ w,
  match body w with
  | (Ret a, w') => (Ret a, w')
  | (Raise e, w') => handler e w'
  end.

(** A pure library computation that may raise. *)
Definition lift {A} (r : result A) : M A := λ w, (r, w).

Definition raised {A} (r : result A) : option exn :=
  match r with
  | Ret _ => None
  | Raise e => Some e
  end.

Definition record_call (c : sdk_call) (e : option exn) (w : world) : world :=
  {| stdout := stdout w;
     stderr := stderr w;
     calls := calls w ++ [{| ev_call := c; ev_raised := e |}];
     ads_auth := ads_auth w |}.

(** A call into the SDK with its response. *)
Definition sdk {A} (c : sdk_call) (resp : result A) : M A := λ w,
  (resp, record_call c (raised resp) w).

(** A call into ADS, whose response depends on the configured auth. *)
Definition ads {A} (c : sdk_call) (resp : option string → result A) : M A := λ w,
  sdk c (resp (ads_auth w)) w.

(** [print(line)] *)
Definition print (line : string) : M unit := λ w,
  (Ret (), {| stdout := stdout w ++ [line];
              stderr := stderr w;
              calls := calls w;
              ads_auth := ads_auth w |}).

(** [logger.info(msg)]: the level is INFO, so the record is emitted. *)
Definition logger_info (msg : string) : M unit := λ w,
  (Ret (), {| stdout := stdout w;
              stderr := stderr w ++ [{| levelname := "INFO"; message := msg |}];
              calls := calls w;
              ads_auth := ads_auth w |}).

(** [ads.set_auth(mode)], run once when the module is loaded. *)
Definition set_auth (mode : string) (w : world) : world :=
  {| stdout := stdout w;
     stderr := stderr w;
     calls := calls w;
     ads_auth := Some mode |}.

Definition startup (w : world) : world := set_auth "resource_principal" w.

(** ** The tool handlers *)

(** [projects[i]] on the answer of a listing call. *)
Definition getitem {A} (x : listing A) (i : nat) : result A :=
  match x with
  | None => Raise {| exc_type := "TypeError";
                     exc_str := "'NoneType' object is not subscriptable" |}
  | Some l =>
      match l !! i with
      | Some a => Ret a
      | None => Raise {| exc_type := "IndexError";
                         exc_str := "list index out of range" |}
      end
  end.

(** The three lists [list_projects] fills, one append each per turn. *)
Record project_lists := {
  project_id : list pyval;
  project_name : list pyval;
  project_desc : list pyval;
}.

(** The body of [for i in range(len(projects))], over the indices
    still to visit. *)
Fixpoint list_projects_loop (projects : listing Ads.ProjectSummary) (range : list nat)
    (acc : project_lists) : result project_lists :=
  match range with
  | [] => Ret acc
  | i :: range' =>
      match getitem projects i with
      | Raise e => Raise e
      | Ret p =>
          list_projects_loop projects range'
            {| project_id := project_id acc ++ [py_of_attr (Ads.id p)];
               project_name := project_name acc ++ [py_of_attr (Ads.display_name p)];
               project_desc := project_desc acc ++ [py_of_attr (Ads.description p)] |}
      end
  end.

(** The sizing [create_notebook_session] writes into every request. *)
Definition session_config : NotebookSessionConfigDetails :=
  {| shape := "VM.Standard.E4.Flex";
     block_storage_size_in_gbs := 50;
     notebook_session_shape_config_details :=
       {| ocpus := 4; memory_in_gbs := 16 |} |}.

Section Handlers.

Variable B : Backend.

Definition get_compartment_id : M string :=
  signer ← sdk Call_get_resource_principals_signer (get_resource_principals_signer B);
  identity_client ← sdk (Call_IdentityClient signer) (IdentityClient B signer);
  let compartment_id := Oci.compartment_id signer in
  mret compartment_id.

Definition project_count (compartment_id : string) : M nat :=
  logger_info "calling project_count tool successfully";;
  try_except
    (project_catalog ← ads (Call_ProjectCatalog compartment_id)
                           (λ auth, ProjectCatalog B auth compartment_id);
     projects ← sdk Call_list_projects (Ads.list_projects project_catalog);
     num_projects ← sdk Call_len_ProjectCatalog (Ads.len project_catalog);
     mret num_projects)
    (λ e, print ("Error getting project count: " +:+ exc_str e);; raise e).

Definition create_project (project_name project_description compartment_id : string)
    : M (gmap string (gmap Pandas.label pyval)) :=
  try_except
    (project_catalog ← ads (Call_ProjectCatalog compartment_id)
                           (λ auth, ProjectCatalog B auth compartment_id);
     res ← sdk (Call_create_project project_name project_description compartment_id)
               (Ads.create_project project_catalog
                  project_name project_description compartment_id);
     df ← sdk Call_to_dataframe (Ads.to_dataframe res);
     mret (Pandas.to_dict df))
    (λ e, print ("Error getting project count: " +:+ exc_str e);; raise e).

Definition model_count (compartment_id : string) : M nat :=
  try_except
    (model_catalog ← ads (Call_ModelCatalog compartment_id)
                         (λ auth, ModelCatalog B auth compartment_id);
     models ← sdk Call_list_models (Ads.list_models model_catalog);
     num_models ← lift (py_len models);
     mret num_models)
    (λ e, print ("Error getting model count: " +:+ exc_str e);; raise e).

Definition list_projects (compartment_id : string) : M (list (gmap string pyval)) :=
  try_except
    (project_catalog ← ads (Call_ProjectCatalog compartment_id)
                           (λ auth, ProjectCatalog B auth compartment_id);
     projects ← sdk Call_list_projects (Ads.list_projects project_catalog);
     n ← lift (py_len projects);
     filled ← lift (list_projects_loop projects (seq 0 n)
                      {| project_id := []; project_name := []; project_desc := [] |});
     df ← lift (Pandas.DataFrame_of_dict
                  [("project_id", project_id filled);
                   ("project_name", project_name filled);
                   ("project_description", project_desc filled)]);
     let projects_df := Pandas.to_dict_records df in
     mret projects_df)
    (λ e, print ("Error getting project list: " +:+ exc_str e);; raise e).

Definition create_notebook_session (project_id compartment_id display_name : string)
    : M (gmap string pyval) :=
  try_except
    (signer ← sdk Call_get_resource_principals_signer (get_resource_principals_signer B);
     ds_client ← sdk (Call_DataScienceClient signer) (DataScienceClient B signer);
     let details :=
       {| Oci.req_project_id := project_id;
          Oci.req_compartment_id := compartment_id;
          Oci.req_display_name := display_name;
          Oci.req_notebook_session_config_details := session_config |} in
     create_notebook_session_response ←
       sdk (Call_create_notebook_session details)
           (Oci.create_notebook_session ds_client details);
     let data := Oci.data create_notebook_session_response in
     let notebook_dict : gmap string pyval := ∅ in
     let notebook_dict :=
       <["notebook_session_url" := py_of_attr (Oci.notebook_session_url data)]> notebook_dict in
     let notebook_dict :=
       <["display_name" := py_of_attr (Oci.display_name data)]> notebook_dict in
     let notebook_dict :=
       <["time_created" := PyDatetime (Oci.time_created data)]> notebook_dict in
     let notebook_dict :=
       <["session_details" := PyConfig (Oci.notebook_session_config_details data)]> notebook_dict in
     mret notebook_dict)
    (λ e, print ("Error creating notebook session: " +:+ exc_str e);; raise e).

End Handlers.

(** ** The dispatcher's view: a tool call and what it returns *)

Inductive tool_call :=
| GetCompartmentId
| ProjectCount (compartment_id : string)
| CreateProject (project_name project_description compartment_id : string)
| ModelCount (compartment_id : string)
| ListProjects (compartment_id : string)
| CreateNotebookSession (project_id compartment_id display_name : string).

Inductive tool_value :=
| OfStr (s : string)
| OfInt (n : nat)
| OfFrame (d : gmap string (gmap Pandas.label pyval))
| OfRecords (l : list (gmap string pyval))
| OfDict (d : gmap string pyval).

(** The name each handler is registered under by [@mcp.tool()]. *)
Definition tool_name (t : tool_call) : string :=
  match t with
  | GetCompartmentId => "get_compartment_id"
  | ProjectCount _ => "project_count"
  | CreateProject _ _ _ => "create_project"
  | ModelCount _ => "model_count"
  | ListProjects _ => "list_projects"
  | CreateNotebookSession _ _ _ => "create_notebook_session"
  end.

(** Routing of a call to its handler. *)
Definition invoke (B : Backend) (t : tool_call) : M tool_value :=
  match t with
  | GetCompartmentId => r ← get_compartment_id B; mret (OfStr r)
  | ProjectCount c => r ← project_count B c; mret (OfInt r)
  | CreateProject n d c => r ← create_project B n d c; mret (OfFrame r)
  | ModelCount c => r ← model_count B c; mret (OfInt r)
  | ListProjects c => r ← list_projects B c; mret (OfRecords r)
  | CreateNotebookSession p c d => r ← create_notebook_session B p c d; mret (OfDict r)
  end.

(** The process after serving the requests in order, each against the
    backend as it answers at that time. *)
Fixpoint serve (reqs : list (Backend * tool_call)) (w : world) : world :=
  match reqs with
  | [] => w
  | (B, t) :: reqs' => serve reqs' (invoke B t w).2
  end.

(** The creation calls among the calls into the SDK. *)
Definition is_create_project (call : sdk_call) : bool :=
  match call with
  | Call_create_project _ _ _ => true
  | _ => false
  end.

(** What the [except] clause of a tool prints for the exception [e];
    [get_compartment_id] has no such clause. *)
Definition diagnostic (t : tool_call) (e : exn) : list string :=
  match t with
  | GetCompartmentId => []
  | ProjectCount _ => ["Error getting project count: " +:+ exc_str e]
  | CreateProject _ _ _ => ["Error getting project count: " +:+ exc_str e]
  | ModelCount _ => ["Error getting model count: " +:+ exc_str e]
  | ListProjects _ => ["Error getting project list: " +:+ exc_str e]
  | CreateNotebookSession _ _ _ => ["Error creating notebook session: " +:+ exc_str e]
  end.

(** What a tool hands to [logger] before its [try]. *)
Definition entry_records (t : tool_call) : list log_record :=
  match t with
  | ProjectCount _ =>
      [{| levelname := "INFO"; message := "calling project_count tool successfully" |}]
  | _ => []
  end.

(** The call went through. *)
Definition answered (ev : sdk_event) : Prop := ev_raised ev = None.

(** The tools that take [len] of a listing themselves. *)
Definition takes_len (t : tool_call) : Prop :=
  match t with
  | ModelCount _ | ListProjects _ => True
  | _ => False
  end.

(** A computation that leaves the authentication mode as it found it. *)
Definition keeps_auth {A} (m : M A) : Prop :=
  ∀ w, ads_auth (m w).2 = ads_auth w.

(** The mapping [list_projects] is to return for one project: its
    identifier, display name and description. *)
Definition project_record (p : Ads.ProjectSummary) : gmap string pyval :=
  {[ "project_id" := py_of_attr (Ads.id p);
     "project_name" := py_of_attr (Ads.display_name p);
     "project_description" := py_of_attr (Ads.description p) ]}.

(** [log_request(tool_name, **kwargs)]; [kwargs] is the text
    [str(kwargs)] that the f-string puts into the message. *)
Definition log_request (tool_name kwargs : string) : M unit :=
  logger_info ("[REQUEST RECEIVED] Tool: " +:+ tool_name +:+ ", Args: " +:+ kwargs).

(** [log_response(tool_name, result)]; [result] is the text
    [str(result)]. *)
Definition log_response (tool_name result : string) : M unit :=
  logger_info ("[RESPONSE SENT] Tool: " +:+ tool_name +:+ ", Result: " +:+ result).

(** The SDK calls issued since the process was in state [w]. *)
Definition calls_since (w w' : world) : list sdk_event :=
  drop (length (calls w)) (calls w').

(** The records logged since the process was in state [w]. *)
Definition logged_since (w w' : world) : list log_record :=
  drop (length (stderr w)) (stderr w').

(** The SDK calls a tool issues when every one of them is answered. *)
Definition sdk_calls_on_success (t : tool_call) : nat :=
  match t with
  | GetCompartmentId => 2
  | ProjectCount _ => 3
  | CreateProject _ _ _ => 3
  | ModelCount _ => 2
  | ListProjects _ => 2
  | CreateNotebookSession _ _ _ => 3
  end.

(** The outcome of each request of a sequence served in order. *)
Fixpoint serve_outcomes (reqs : list (Backend * tool_call)) (w : world)
    : list (tool_call * result tool_value) :=
  match reqs with
  | [] => []
  | (B, t) :: reqs' => (t, (invoke B t w).1) :: serve_outcomes reqs' (invoke B t w).2
  end.

(** A request that ended in the [except] clause of its tool. *)
Definition caught_failure (o : tool_call * result tool_value) : bool :=
  match o with
  | (GetCompartmentId, _) => false
  | (_, Raise _) => true
  | (_, Ret _) => false
  end.

Definition is_project_count (o : tool_call * result tool_value) : bool :=
  match o with
  | (ProjectCount _, _) => true
  | _ => false
  end.

Definition is_create_notebook_session (call : sdk_call) : bool :=
  match call with
  | Call_create_notebook_session _ => true
  | _ => false
  end.

(** ** Simulated backends *)

Definition w0 : world :=
  {| stdout := []; stderr := []; calls := []; ads_auth := None |}.

Definition service_error : exn :=
  {| exc_type := "ServiceError"; exc_str := "NotAuthorizedOrNotFound" |}.

(** Every SDK constructor fails. *)
Definition failing_backend : Backend :=
  {| get_resource_principals_signer := Raise service_error;
     IdentityClient := λ _, Raise service_error;
     DataScienceClient := λ _, Raise service_error;
     ProjectCatalog := λ _ _, Raise service_error;
     ModelCatalog := λ _ _, Raise service_error |}.

Definition demo_signer : Oci.Signer :=
  {| Oci.compartment_id := "ocid1.compartment.oc1..demo" |}.

Definition demo_projects : list Ads.ProjectSummary :=
  [ {| Ads.id := Some "ocid1.project.a";
       Ads.display_name := Some "churn";
       Ads.description := Some "customer churn" |};
    {| Ads.id := Some "ocid1.project.b";
       Ads.display_name := Some "fraud";
       Ads.description := None |} ].

Definition demo_models : list Ads.ModelSummary :=
  [ {| Ads.model_id := Some "ocid1.model.a" |};
    {| Ads.model_id := Some "ocid1.model.b" |};
    {| Ads.model_id := Some "ocid1.model.c" |} ].

(** The frame of a created project: one column, one row per field. *)
Definition created_frame (name description compartment : string) : Pandas.DataFrame :=
  {| Pandas.index := [Pandas.LStr "display_name"; Pandas.LStr "description";
                      Pandas.LStr "compartment_id"; Pandas.LStr "lifecycle_state"];
     Pandas.columns := [("", [PyStr name; PyStr description; PyStr compartment;
                              PyStr "ACTIVE"])] |}.

Definition demo_session (display_name : string) : Oci.NotebookSession :=
  {| Oci.notebook_session_url := None;
     Oci.display_name := Some display_name;
     Oci.time_created := 1762128000;
     Oci.notebook_session_config_details := session_config |}.

(** A catalog with the projects above; [n] is what [len] answers. *)
Definition demo_catalog (n : nat) : Ads.ProjectCatalog :=
  {| Ads.list_projects := Ret (Some demo_projects);
     Ads.len := Ret n;
     Ads.create_project := λ name description compartment,
       Ret {| Ads.to_dataframe := Ret (created_frame name description compartment) |} |}.

Definition demo_backend_len (n : nat) : Backend :=
  {| get_resource_principals_signer := Ret demo_signer;
     IdentityClient := λ _, Ret Oci.IdentityClient_obj;
     DataScienceClient := λ _,
       Ret {| Oci.create_notebook_session := λ details,
                Ret {| Oci.data := demo_session (Oci.req_display_name details) |} |};
     ProjectCatalog := λ _ _, Ret (demo_catalog n);
     ModelCatalog := λ _ _, Ret {| Ads.list_models := Ret (Some demo_models) |} |}.

(** A catalog whose length agrees with its listing. *)
Definition demo_backend : Backend := demo_backend_len 2.

(** A catalog object that reports no project while its listing has two. *)
Definition stale_backend : Backend := demo_backend_len 0.

(** The signer works, the service refuses the client. *)
Definition refusing_backend : Backend :=
  {| get_resource_principals_signer := Ret demo_signer;
     IdentityClient := λ _, Raise service_error;
     DataScienceClient := λ _, Raise service_error;
     ProjectCatalog := λ _ _, Ret (demo_catalog 2);
     ModelCatalog := λ _ _, Raise service_error |}.

(** The catalog is built, its listing fails; [n] is what [len] answers. *)
Definition unlistable_backend (n : nat) : Backend :=
  {| get_resource_principals_signer := Ret demo_signer;
     IdentityClient := λ _, Ret Oci.IdentityClient_obj;
     DataScienceClient := λ _, Raise service_error;
     ProjectCatalog := λ _ _,
       Ret {| Ads.list_projects := Raise service_error;
              Ads.len := Ret n;
              Ads.create_project := λ _ _ _, Raise service_error |};
     ModelCatalog := λ _ _, Ret {| Ads.list_models := Raise service_error |} |}.

(** The project is created, its frame cannot be built. *)
Definition frameless_backend : Backend :=
  {| get_resource_principals_signer := Ret demo_signer;
     IdentityClient := λ _, Ret Oci.IdentityClient_obj;
     DataScienceClient := λ _, Raise service_error;
     ProjectCatalog := λ _ _,
       Ret {| Ads.list_projects := Ret (Some demo_projects);
              Ads.len := Ret 2;
              Ads.create_project := λ _ _ _,
                Ret {| Ads.to_dataframe := Raise service_error |} |};
     ModelCatalog := λ _ _, Raise service_error |}.

(** The catalogs of a compartment that holds no project and no model:
    the listing calls answer [None], and the length of the project
    catalog is that of its listing. *)
Definition empty_catalog : Ads.ProjectCatalog :=
  {| Ads.list_projects := Ret None;
     Ads.len := py_len (A := Ads.ProjectSummary) None;
     Ads.create_project := λ name description compartment,
       Ret {| Ads.to_dataframe := Ret (created_frame name description compartment) |} |}.

Definition empty_backend : Backend :=
  {| get_resource_principals_signer := Ret demo_signer;
     IdentityClient := λ _, Ret Oci.IdentityClient_obj;
     DataScienceClient := λ _, Raise service_error;
     ProjectCatalog := λ _ _, Ret empty_catalog;
     ModelCatalog := λ _ _, Ret {| Ads.list_models := Ret None |} |}.

(** ** Running a handler *)

Ltac step :=
  repeat progress
    (cbv beta iota zeta delta
       [get_compartment_id project_count create_project model_count list_projects
        create_notebook_session invoke try_except mbind M_bind mret M_ret
        ads sdk lift print raise logger_info raised fst snd];
     cbn [ads_auth stdout stderr calls record_call py_len]).

(** Closes one branch of the case analysis of a run. *)
Ltac close_outcome :=
  step;
  refine (ex_intro _ _ (conj _ (conj _ _)));
  [ rewrite <- ?app_assoc; reflexivity
  | simpl; rewrite ?app_nil_r; reflexivity
  | split; [|simpl; rewrite ?app_nil_r; reflexivity];
    first
      [ by repeat constructor
      | left; by eexists [], _
      | left; by eexists [_], _; split; [|repeat constructor]
      | left; by eexists [_; _], _; split; [|repeat constructor]
      | right; by split_and!; [|repeat constructor|] ] ].

(** ** Dicts built from pairs *)

Section dict_of_pairs.

Context `{Countable K} {V : Type}.
Implicit Types (pairs : list (K * V)) (d : gmap K V).

Lemma foldl_insert_fresh pairs d k :
  k ∉ pairs.*1 → foldl (λ d kv, <[kv.1 := kv.2]> d) d pairs !! k = d !! k.
Proof.
  revert d. induction pairs as [|[k' v'] pairs IH]; intros d Hk; [done|].
  rewrite fmap_cons, not_elem_of_cons in Hk. destruct Hk as [Hne Hk].
  simpl. rewrite IH by done. by rewrite lookup_insert_ne.
Qed.

Lemma foldl_insert_elem pairs d k v :
  NoDup pairs.*1 → (k, v) ∈ pairs →
  foldl (λ d kv, <[kv.1 := kv.2]> d) d pairs !! k = Some v.
Proof.
  revert d. induction pairs as [|[k' v'] pairs IH]; intros d Hnd Hin.
  - by apply elem_of_nil in Hin.
  - rewrite fmap_cons, NoDup_cons in Hnd. destruct Hnd as [Hk' Hnd].
    apply elem_of_cons in Hin as [Heq|Hin]; simpl.
    + inversion Heq; subst. rewrite foldl_insert_fresh by done.
      apply lookup_insert_eq.
    + by apply IH.
Qed.

Lemma dict_of_pairs_lookup pairs k v :
  NoDup pairs.*1 → (k, v) ∈ pairs → Pandas.dict_of_pairs pairs !! k = Some v.
Proof. apply foldl_insert_elem. Qed.

End dict_of_pairs.

Lemma NoDup_fst_zip {A C} (l : list A) (k : list C) : NoDup l → NoDup (zip l k).*1.
Proof.
  intros Hnd. revert k. induction Hnd as [|x l Hx Hnd IH]; intros [|y k]; simpl;
    try apply NoDup_nil_2.
  apply NoDup_cons. split; [|apply IH].
  intros Hin. apply Hx. apply list_elem_of_fmap in Hin as [[x' y'] [-> Hin]].
  by apply elem_of_zip_l in Hin.
Qed.

(** With unique labels, [to_dict] holds every cell of the frame under
    its column name and row label. *)
Lemma to_dict_cell (df : Pandas.DataFrame) col l v :
  Pandas.unique_labels df → Pandas.cell df col l = Some v →
  Pandas.to_dict df !! col ≫= (.!! l) = Some v.
Proof.
  intros [Hcols Hidx] Hcell. unfold Pandas.cell in Hcell.
  destruct (list_find _ (Pandas.columns df)) as [[j [col' cells]]|] eqn:Hc; [|done].
  destruct (list_find _ (Pandas.index df)) as [[i l']|] eqn:Hi; [|done].
  simpl in Hcell.
  apply list_find_Some in Hc as (Hj & Hcol & _).
  apply list_find_Some in Hi as (Hil & Hl & _).
  simpl in Hcol. subst col' l'.
  unfold Pandas.to_dict.
  erewrite dict_of_pairs_lookup; first (simpl; apply dict_of_pairs_lookup).
  - by apply NoDup_fst_zip.
  - apply list_elem_of_lookup. exists i. by apply lookup_zip_with_Some; eauto.
  - by rewrite <- list_fmap_compose.
  - apply list_elem_of_fmap. exists (col, cells). split; [done|].
    apply list_elem_of_lookup. eauto.
Qed.

(** ** The loop and the frame of [list_projects] *)

Lemma list_projects_loop_seq (projects : list Ads.ProjectSummary) k n acc :
  k + n ≤ length projects →
  list_projects_loop (Some projects) (seq k n) acc =
  Ret {| project_id := project_id acc
           ++ ((λ p, py_of_attr (Ads.id p)) <$> take n (drop k projects));
         project_name := project_name acc
           ++ ((λ p, py_of_attr (Ads.display_name p)) <$> take n (drop k projects));
         project_desc := project_desc acc
           ++ ((λ p, py_of_attr (Ads.description p)) <$> take n (drop k projects)) |}.
Proof.
  revert k acc. induction n as [|n IH]; intros k acc Hle; simpl.
  - rewrite !app_nil_r. by destruct acc.
  - destruct (lookup_lt_is_Some_2 projects k) as [p Hp]; [lia|].
    unfold getitem. rewrite Hp. rewrite IH by lia. simpl.
    rewrite (drop_S _ _ _ Hp). simpl. by rewrite <- !app_assoc.
Qed.

(** The loop visits every project once, in order, and never indexes
    out of range. *)
Lemma list_projects_loop_all (projects : list Ads.ProjectSummary) :
  list_projects_loop (Some projects) (seq 0 (length projects))
    {| project_id := []; project_name := []; project_desc := [] |} =
  Ret {| project_id := (λ p, py_of_attr (Ads.id p)) <$> projects;
         project_name := (λ p, py_of_attr (Ads.display_name p)) <$> projects;
         project_desc := (λ p, py_of_attr (Ads.description p)) <$> projects |}.
Proof.
  rewrite list_projects_loop_seq by (simpl; lia).
  simpl. by rewrite drop_0, firstn_all.
Qed.

Lemma fmap_seq_lookup {A C} (l : list A) (F : nat → C) (G : A → C) :
  (∀ i x, l !! i = Some x → F i = G x) →
  F <$> seq 0 (length l) = G <$> l.
Proof.
  intros HFG. apply list_eq. intros i. rewrite !list_lookup_fmap.
  destruct (l !! i) as [x|] eqn:Hi; simpl.
  - rewrite lookup_seq_lt by (by eapply lookup_lt_Some). simpl.
    f_equal. by apply HFG.
  - rewrite lookup_seq_ge; [done|]. by apply lookup_ge_None.
Qed.

Lemma project_record_pairs p :
  Pandas.dict_of_pairs
    [("project_id", py_of_attr (Ads.id p));
     ("project_name", py_of_attr (Ads.display_name p));
     ("project_description", py_of_attr (Ads.description p))] = project_record p.
Proof.
  unfold Pandas.dict_of_pairs, project_record. simpl.
  rewrite (insert_insert_ne _ "project_description" "project_name") by done.
  rewrite (insert_insert_ne _ "project_description" "project_id") by done.
  rewrite (insert_insert_ne _ "project_name" "project_id") by done.
  by rewrite insert_empty.
Qed.

(** The three lists have one length, so the frame is built, and its
    records are the projects' mappings in order. *)
Lemma projects_frame_records (projects : list Ads.ProjectSummary) :
  ∃ df,
    Pandas.DataFrame_of_dict
      [("project_id", (λ p, py_of_attr (Ads.id p)) <$> projects);
       ("project_name", (λ p, py_of_attr (Ads.display_name p)) <$> projects);
       ("project_description", (λ p, py_of_attr (Ads.description p)) <$> projects)]
    = Ret df
    ∧ Pandas.to_dict_records df = project_record <$> projects.
Proof.
  eexists. split.
  - unfold Pandas.DataFrame_of_dict. simpl.
    rewrite !length_fmap, Nat.eqb_refl. simpl. reflexivity.
  - unfold Pandas.to_dict_records, Pandas.RangeIndex. simpl.
    rewrite !length_fmap, length_seq.
    apply fmap_seq_lookup. intros i p Hi.
    unfold Pandas.row_cells. simpl.
    rewrite !list_lookup_fmap, Hi. simpl.
    apply project_record_pairs.
Qed.

Lemma project_record_fields p :
  project_record p !! "project_id" = Some (py_of_attr (Ads.id p))
  ∧ project_record p !! "project_name" = Some (py_of_attr (Ads.display_name p))
  ∧ project_record p !! "project_description" = Some (py_of_attr (Ads.description p))
  ∧ dom (project_record p) = {[ "project_id"; "project_name"; "project_description" ]}.
Proof.
  unfold project_record. split_and!.
  - by rewrite lookup_insert_eq.
  - rewrite lookup_insert_ne by done. by rewrite lookup_insert_eq.
  - rewrite !lookup_insert_ne by done. by rewrite lookup_singleton_eq.
  - rewrite !dom_insert_L, dom_singleton_L. set_solver.
Qed.

Lemma list_projects_run B c w cat ps :
  ProjectCatalog B (ads_auth w) c = Ret cat →
  Ads.list_projects cat = Ret (Some ps) →
  list_projects B c w =
  (Ret (project_record <$> ps),
   record_call Call_list_projects None (record_call (Call_ProjectCatalog c) None w)).
Proof.
  intros Hcat Hps. step. rewrite Hcat. step. rewrite Hps. step. cbn [py_len]. step.
  rewrite list_projects_loop_all. step. cbn [project_id project_name project_desc].
  destruct (projects_frame_records ps) as (df & -> & ->). by step.
Qed.

(** C3, on a compartment without projects: the listing call answers
    [None], [len(projects)] raises its [TypeError], and
    [list_projects] prints its line and raises that exception where
    an empty sequence of mappings is due. *)
Theorem list_projects_empty_compartment B c w cat :
  ProjectCatalog B (ads_auth w) c = Ret cat →
  Ads.list_projects cat = Ret None →
  (list_projects B c w).1 = Raise no_len
  ∧ stdout (list_projects B c w).2
    = stdout w ++ ["Error getting project list: object of type 'NoneType' has no len()"].
Proof. intros Hcat Hps. step. rewrite Hcat. step. rewrite Hps. by step. Qed.

Lemma list_projects_empty_compartment_witness :
  (list_projects empty_backend "ocid1.compartment.oc1..empty" (startup w0)).1 = Raise no_len
  ∧ stdout (list_projects empty_backend "ocid1.compartment.oc1..empty" (startup w0)).2
    = ["Error getting project list: object of type 'NoneType' has no len()"].
Proof.
  apply (list_projects_empty_compartment empty_backend _ (startup w0) empty_catalog);
    reflexivity.
Defined.

(** X16: when the listing call for the compartment answers the list
    of projects [ps], [list_projects] returns one mapping per project,
    [length ps] of them, the [i]-th holding the identifier, display
    name and description of the [i]-th project of the listing (and
    nothing else): the backend's order is kept. *)
Theorem list_projects_returns_backend_listing B c w cat (ps : list Ads.ProjectSummary) :
  ProjectCatalog B (ads_auth w) c = Ret cat →
  Ads.list_projects cat = Ret (Some ps) →
  ∃ l : list (gmap string pyval),
    (list_projects B c w).1 = Ret l
    ∧ length l = length ps
    ∧ ∀ i p, ps !! i = Some p →
        ∃ m, l !! i = Some m
          ∧ m !! "project_id" = Some (py_of_attr (Ads.id p))
          ∧ m !! "project_name" = Some (py_of_attr (Ads.display_name p))
          ∧ m !! "project_description" = Some (py_of_attr (Ads.description p))
          ∧ dom m = {[ "project_id"; "project_name"; "project_description" ]}.
Proof.
  intros Hcat Hps. exists (project_record <$> ps).
  rewrite (list_projects_run _ _ _ _ _ Hcat Hps). split; [done|].
  split; [by rewrite length_fmap|].
  intros i p Hi. exists (project_record p).
  rewrite list_lookup_fmap, Hi. split; [done|]. apply project_record_fields.
Qed.

Lemma list_projects_returns_backend_listing_witness :
  ∃ l : list (gmap string pyval),
    (list_projects demo_backend "ocid1.compartment.oc1..demo" (startup w0)).1 = Ret l
    ∧ length l = 2
    ∧ ∀ i p, demo_projects !! i = Some p →
        ∃ m, l !! i = Some m
          ∧ m !! "project_id" = Some (py_of_attr (Ads.id p))
          ∧ m !! "project_name" = Some (py_of_attr (Ads.display_name p))
          ∧ m !! "project_description" = Some (py_of_attr (Ads.description p))
          ∧ dom m = {[ "project_id"; "project_name"; "project_description" ]}.
Proof.
  apply (list_projects_returns_backend_listing demo_backend _ (startup w0)
           (demo_catalog 2) demo_projects); reflexivity.
Defined.

(** ** Counting projects and models *)

Lemma project_count_run B c w cat (ps : listing Ads.ProjectSummary) n :
  ProjectCatalog B (ads_auth w) c = Ret cat →
  Ads.list_projects cat = Ret ps →
  Ads.len cat = Ret n →
  ∃ w', project_count B c w = (Ret n, w')
    ∧ stdout w' = stdout w
    ∧ calls w' = calls w ++
        [ {| ev_call := Call_ProjectCatalog c; ev_raised := None |};
          {| ev_call := Call_list_projects; ev_raised := None |};
          {| ev_call := Call_len_ProjectCatalog; ev_raised := None |} ].
Proof.
  intros Hcat Hps Hlen. eexists. step. rewrite Hcat. step. rewrite Hps. step.
  rewrite Hlen. step. split; [reflexivity|]. split; [done|].
  unfold record_call. simpl. by rewrite <- !app_assoc.
Qed.

(** C4, on a compartment without projects: the listing call answers
    [None]; the catalog's length, computed by the SDK from its
    listing, is the [TypeError] of [len(None)], and [project_count]
    prints its line and raises that exception where 0 is due. *)
Theorem project_count_empty_compartment B c w cat :
  ProjectCatalog B (ads_auth w) c = Ret cat →
  Ads.list_projects cat = Ret None →
  Ads.len cat = Ads.len_of_listing cat →
  (project_count B c w).1 = Raise no_len
  ∧ stdout (project_count B c w).2
    = stdout w ++ ["Error getting project count: object of type 'NoneType' has no len()"].
Proof.
  intros Hcat Hps Hlen. unfold Ads.len_of_listing in Hlen. rewrite Hps in Hlen.
  step. rewrite Hcat. step. rewrite Hps. step. rewrite Hlen. by step.
Qed.

Lemma project_count_empty_compartment_witness :
  (project_count empty_backend "ocid1.compartment.oc1..empty" (startup w0)).1 = Raise no_len
  ∧ stdout (project_count empty_backend "ocid1.compartment.oc1..empty" (startup w0)).2
    = ["Error getting project count: object of type 'NoneType' has no len()"].
Proof.
  apply (project_count_empty_compartment empty_backend _ (startup w0) empty_catalog);
    reflexivity.
Defined.

(** X18: on a catalog whose length is that of its listing, as the SDK
    computes it, and whose listing call answers the list [ps],
    [project_count] returns [length ps]. *)
Theorem project_count_of_listing B c w cat (ps : list Ads.ProjectSummary) :
  ProjectCatalog B (ads_auth w) c = Ret cat →
  Ads.list_projects cat = Ret (Some ps) →
  Ads.len cat = Ads.len_of_listing cat →
  (project_count B c w).1 = Ret (length ps).
Proof.
  intros Hcat Hps Hlen. unfold Ads.len_of_listing in Hlen. rewrite Hps in Hlen.
  by destruct (project_count_run _ _ _ _ _ _ Hcat Hps Hlen) as (w' & -> & _).
Qed.

Lemma project_count_of_listing_witness :
  (project_count demo_backend "ocid1.compartment.oc1..demo" (startup w0)).1 = Ret 2.
Proof.
  apply (project_count_of_listing demo_backend _ (startup w0) (demo_catalog 2) demo_projects);
    reflexivity.
Defined.

(** C10: [project_count] fetches the listing and then returns what
    [len(project_catalog)] answers, whatever the listing call has
    answered; when the listing is a list of another length, the result
    is not the listing's length. *)
Theorem project_count_is_catalog_len B c w cat (projects : listing Ads.ProjectSummary) n :
  ProjectCatalog B (ads_auth w) c = Ret cat →
  Ads.list_projects cat = Ret projects →
  Ads.len cat = Ret n →
  (project_count B c w).1 = Ret n
  ∧ {| ev_call := Call_list_projects; ev_raised := None |} ∈ calls (project_count B c w).2
  ∧ (∀ ps, projects = Some ps → n ≠ length ps →
           (project_count B c w).1 ≠ Ret (length ps)).
Proof.
  intros Hcat Hps Hlen.
  destruct (project_count_run _ _ _ _ _ _ Hcat Hps Hlen) as (w' & -> & _ & Hcalls).
  simpl. split_and!; [done| |congruence].
  rewrite Hcalls. set_solver.
Qed.

Lemma project_count_is_catalog_len_witness :
  (project_count stale_backend "c" w0).1 = Ret 0
  ∧ {| ev_call := Call_list_projects; ev_raised := None |}
      ∈ calls (project_count stale_backend "c" w0).2
  ∧ (0 ≠ length demo_projects →
     (project_count stale_backend "c" w0).1 ≠ Ret (length demo_projects)).
Proof.
  destruct (project_count_is_catalog_len stale_backend "c" w0 (demo_catalog 0)
              (Some demo_projects) 0 eq_refl eq_refl eq_refl) as (Hret & Hcall & Hne).
  split_and!; [exact Hret|exact Hcall|exact (Hne demo_projects eq_refl)].
Defined.

(** C7, on a compartment without models: the listing call answers
    [None], [len(models)] raises its [TypeError], and [model_count]
    prints its line and raises that exception where 0 is due. *)
Theorem model_count_empty_catalog B c w cat :
  ModelCatalog B (ads_auth w) c = Ret cat →
  Ads.list_models cat = Ret None →
  (model_count B c w).1 = Raise no_len
  ∧ stdout (model_count B c w).2
    = stdout w ++ ["Error getting model count: object of type 'NoneType' has no len()"].
Proof. intros Hcat Hms. step. rewrite Hcat. step. rewrite Hms. by step. Qed.

Lemma model_count_empty_catalog_witness :
  (model_count empty_backend "ocid1.compartment.oc1..empty" (startup w0)).1 = Raise no_len
  ∧ stdout (model_count empty_backend "ocid1.compartment.oc1..empty" (startup w0)).2
    = ["Error getting model count: object of type 'NoneType' has no len()"].
Proof.
  apply (model_count_empty_catalog empty_backend _ (startup w0)
           {| Ads.list_models := Ret None |}); reflexivity.
Defined.

(** X17: when the listing call of the model catalog answers the list
    of models [ms], [model_count] returns [length ms]. *)
Theorem model_count_returns_listing_length B c w cat (ms : list Ads.ModelSummary) :
  ModelCatalog B (ads_auth w) c = Ret cat →
  Ads.list_models cat = Ret (Some ms) →
  (model_count B c w).1 = Ret (length ms).
Proof. intros Hcat Hms. step. rewrite Hcat. step. rewrite Hms. by step. Qed.

Lemma model_count_returns_listing_length_witness :
  (model_count demo_backend "ocid1.compartment.oc1..demo" (startup w0)).1 = Ret 3.
Proof.
  apply (model_count_returns_listing_length demo_backend _ (startup w0)
           {| Ads.list_models := Ret (Some demo_models) |} demo_models); reflexivity.
Defined.

(** ** Creating a notebook session *)

Lemma create_notebook_session_calls B p c d w :
  let details :=
    {| Oci.req_project_id := p;
       Oci.req_compartment_id := c;
       Oci.req_display_name := d;
       Oci.req_notebook_session_config_details := session_config |} in
  ∃ evs, calls (create_notebook_session B p c d w).2 = calls w ++ evs
    ∧ match get_resource_principals_signer B with
      | Raise e =>
          evs = [ {| ev_call := Call_get_resource_principals_signer; ev_raised := Some e |} ]
      | Ret signer =>
          match DataScienceClient B signer with
          | Raise e =>
              evs = [ {| ev_call := Call_get_resource_principals_signer; ev_raised := None |};
                      {| ev_call := Call_DataScienceClient signer; ev_raised := Some e |} ]
          | Ret client =>
              evs = [ {| ev_call := Call_get_resource_principals_signer; ev_raised := None |};
                      {| ev_call := Call_DataScienceClient signer; ev_raised := None |};
                      {| ev_call := Call_create_notebook_session details;
                         ev_raised := raised (Oci.create_notebook_session client details) |} ]
          end
      end.
Proof.
  intros details.
  destruct (get_resource_principals_signer B) as [signer|e] eqn:Hs;
    [destruct (DataScienceClient B signer) as [client|e] eqn:Hc|].
  all: refine (ex_intro _ _ (conj _ eq_refl)).
  all: step; rewrite Hs; step; rewrite ?Hc; step.
  all: try destruct (Oci.create_notebook_session client _); step.
  all: by rewrite <- ?app_assoc.
Qed.

(** C2: whatever project identifier, compartment identifier and
    display name the caller gives, every creation request that
    [create_notebook_session] issues carries them together with the
    shape "VM.Standard.E4.Flex", 50 GB of block storage, 4 OCPUs and
    16 GB of memory; and once the signer and the client are obtained,
    exactly that one request is issued. *)
Theorem create_notebook_session_fixed_sizing B p c d w :
  ∃ evs, calls (create_notebook_session B p c d w).2 = calls w ++ evs
    ∧ (∀ ev details, ev ∈ evs → ev_call ev = Call_create_notebook_session details →
         Oci.req_project_id details = p
         ∧ Oci.req_compartment_id details = c
         ∧ Oci.req_display_name details = d
         ∧ shape (Oci.req_notebook_session_config_details details) = "VM.Standard.E4.Flex"
         ∧ block_storage_size_in_gbs (Oci.req_notebook_session_config_details details) = 50%Z
         ∧ ocpus (notebook_session_shape_config_details
                    (Oci.req_notebook_session_config_details details)) = 4%Z
         ∧ memory_in_gbs (notebook_session_shape_config_details
                            (Oci.req_notebook_session_config_details details)) = 16%Z)
    ∧ (∀ signer client,
         get_resource_principals_signer B = Ret signer →
         DataScienceClient B signer = Ret client →
         ∃ details, List.filter
                      (λ call, match call with
                               | Call_create_notebook_session _ => true
                               | _ => false
                               end) (ev_call <$> evs)
                    = [Call_create_notebook_session details]).
Proof.
  destruct (create_notebook_session_calls B p c d w) as (evs & Hcalls & Hevs).
  exists evs. split; [done|]. split.
  - intros ev details Hin Hcall.
    destruct (get_resource_principals_signer B) as [signer|e];
      [destruct (DataScienceClient B signer) as [client|e]|]; subst evs.
    all: repeat (apply elem_of_cons in Hin as [->|Hin]); try by apply elem_of_nil in Hin.
    all: try discriminate Hcall.
    simpl in Hcall. by inversion Hcall.
  - intros signer client Hs Hc. rewrite Hs, Hc in Hevs. subst evs. by eexists.
Qed.

Lemma create_notebook_session_fixed_sizing_witness :
  ∃ details,
    Call_create_notebook_session details
      ∈ ev_call <$> calls (create_notebook_session demo_backend
                             "ocid1.project.a" "ocid1.compartment.oc1..demo" "nb" w0).2
    ∧ shape (Oci.req_notebook_session_config_details details) = "VM.Standard.E4.Flex"
    ∧ block_storage_size_in_gbs (Oci.req_notebook_session_config_details details) = 50%Z
    ∧ ocpus (notebook_session_shape_config_details
               (Oci.req_notebook_session_config_details details)) = 4%Z
    ∧ memory_in_gbs (notebook_session_shape_config_details
                       (Oci.req_notebook_session_config_details details)) = 16%Z.
Proof.
  destruct (create_notebook_session_fixed_sizing demo_backend
              "ocid1.project.a" "ocid1.compartment.oc1..demo" "nb" w0)
    as (evs & Hcalls & Hfixed & Hone).
  destruct (Hone demo_signer _ eq_refl eq_refl) as (details & Hdetails).
  assert (Hin : Call_create_notebook_session details ∈ ev_call <$> evs).
  { apply list_elem_of_In. eapply (proj1 (filter_In _ _ _)).
    rewrite Hdetails. by left. }
  exists details. split; [by rewrite Hcalls|].
  apply list_elem_of_fmap in Hin as (ev & Hcall & Hev).
  by destruct (Hfixed ev details Hev (eq_sym Hcall)) as (_ & _ & _ & ?).
Defined.

(** C6: a successful [create_notebook_session] returns a mapping with
    exactly four entries: the session URL, the display name, the
    creation time and the session configuration object, all four as
    the service's response holds them. *)
Theorem create_notebook_session_four_entries B p c d w (m : gmap string pyval) w' :
  create_notebook_session B p c d w = (Ret m, w') →
  ∃ signer client resp,
    get_resource_principals_signer B = Ret signer
    ∧ DataScienceClient B signer = Ret client
    ∧ Oci.create_notebook_session client
        {| Oci.req_project_id := p;
           Oci.req_compartment_id := c;
           Oci.req_display_name := d;
           Oci.req_notebook_session_config_details := session_config |} = Ret resp
    ∧ dom m = {[ "notebook_session_url"; "display_name"; "time_created"; "session_details" ]}
    ∧ m !! "notebook_session_url"
        = Some (py_of_attr (Oci.notebook_session_url (Oci.data resp)))
    ∧ m !! "display_name" = Some (py_of_attr (Oci.display_name (Oci.data resp)))
    ∧ m !! "time_created" = Some (PyDatetime (Oci.time_created (Oci.data resp)))
    ∧ m !! "session_details"
        = Some (PyConfig (Oci.notebook_session_config_details (Oci.data resp))).
Proof.
  intros Hrun. revert Hrun. step.
  destruct (get_resource_principals_signer B) as [signer|e] eqn:Hs; step; [|done].
  destruct (DataScienceClient B signer) as [client|e] eqn:Hc; step; [|done].
  destruct (Oci.create_notebook_session client _) as [resp|e] eqn:Hr; step; [|done].
  intros [= <- _]. exists signer, client, resp. by split_and!.
Qed.

Lemma create_notebook_session_four_entries_witness :
  ∃ m : gmap string pyval,
    (create_notebook_session demo_backend "ocid1.project.a" "c" "nb" w0).1 = Ret m
    ∧ dom m = {[ "notebook_session_url"; "display_name"; "time_created"; "session_details" ]}.
Proof.
  eexists. split; [reflexivity|].
  destruct (create_notebook_session_four_entries demo_backend "ocid1.project.a" "c" "nb" w0
              _ _ eq_refl) as (_ & _ & _ & _ & _ & _ & Hdom & _).
  exact Hdom.
Defined.

(** ** Creating a project *)

(** C5: for a name [X], a description [Y] and a compartment [C],
    [create_project] issues exactly one creation call, carrying those
    three values; when the service answers with the created project,
    the mapping returned holds every field of that project's frame
    under its column and row label, so it holds [X], [Y] and [C]
    wherever the created project records them. *)
Theorem create_project_one_call_and_fields B X Y C w cat :
  ProjectCatalog B (ads_auth w) C = Ret cat →
  (∃ evs, calls (create_project B X Y C w).2 = calls w ++ evs
     ∧ List.filter is_create_project (ev_call <$> evs) = [Call_create_project X Y C])
  ∧ (∀ res df, Ads.create_project cat X Y C = Ret res →
       Ads.to_dataframe res = Ret df →
       Pandas.unique_labels df →
       ∃ m, (create_project B X Y C w).1 = Ret m
         ∧ (∀ col l v, Pandas.cell df col l = Some v → m !! col ≫= (.!! l) = Some v)
         ∧ (∀ cn ln cd ld cc lc,
              Pandas.cell df cn ln = Some (PyStr X) →
              Pandas.cell df cd ld = Some (PyStr Y) →
              Pandas.cell df cc lc = Some (PyStr C) →
              m !! cn ≫= (.!! ln) = Some (PyStr X)
              ∧ m !! cd ≫= (.!! ld) = Some (PyStr Y)
              ∧ m !! cc ≫= (.!! lc) = Some (PyStr C))).
Proof.
  intros Hcat. split.
  - destruct (Ads.create_project cat X Y C) as [res|e] eqn:Hres;
      [destruct (Ads.to_dataframe res) as [df|e] eqn:Hdf|].
    all: eexists; split;
      [step; rewrite Hcat; step; rewrite Hres; step; rewrite ?Hdf; step;
       rewrite <- ?app_assoc; reflexivity|reflexivity].
  - intros res df Hres Hdf Huniq. exists (Pandas.to_dict df). split.
    + step. rewrite Hcat. step. rewrite Hres. step. rewrite Hdf. by step.
    + split; [by intros; apply to_dict_cell|].
      intros. by split_and!; apply to_dict_cell.
Qed.

Lemma create_project_one_call_and_fields_witness :
  ∃ m, (create_project demo_backend "X" "Y" "C" (startup w0)).1 = Ret m
    ∧ m !! "" ≫= (.!! Pandas.LStr "display_name") = Some (PyStr "X")
    ∧ m !! "" ≫= (.!! Pandas.LStr "description") = Some (PyStr "Y")
    ∧ m !! "" ≫= (.!! Pandas.LStr "compartment_id") = Some (PyStr "C").
Proof.
  destruct (create_project_one_call_and_fields demo_backend "X" "Y" "C" (startup w0)
              (demo_catalog 2) eq_refl) as [_ Hfields].
  destruct (Hfields _ (created_frame "X" "Y" "C") eq_refl eq_refl) as (m & Hm & _ & Hxyz).
  { split; apply (bool_decide_unpack _); vm_compute; exact I. }
  exists m. split; [exact Hm|].
  apply Hxyz; reflexivity.
Defined.

(** ** The compartment of the resource principal *)

(** C8: [get_compartment_id] takes no argument; once the signer and
    the identity client are obtained it returns the signer's
    [compartment_id]; an exception raised by either call reaches the
    caller as it is, and nothing is printed or logged. *)
Theorem get_compartment_id_returns_signer_compartment B w :
  (∀ signer client,
     get_resource_principals_signer B = Ret signer →
     IdentityClient B signer = Ret client →
     (get_compartment_id B w).1 = Ret (Oci.compartment_id signer))
  ∧ (∀ e, get_resource_principals_signer B = Raise e →
          (get_compartment_id B w).1 = Raise e)
  ∧ (∀ signer e,
       get_resource_principals_signer B = Ret signer →
       IdentityClient B signer = Raise e →
       (get_compartment_id B w).1 = Raise e)
  ∧ stdout (get_compartment_id B w).2 = stdout w
  ∧ stderr (get_compartment_id B w).2 = stderr w.
Proof.
  split_and!.
  - intros signer client Hs Hc. step. rewrite Hs. step. rewrite Hc. by step.
  - intros e Hs. step. rewrite Hs. by step.
  - intros signer e Hs Hc. step. rewrite Hs. step. rewrite Hc. by step.
  - step. destruct (get_resource_principals_signer B) as [signer|e]; step; [|done].
    by destruct (IdentityClient B signer).
  - step. destruct (get_resource_principals_signer B) as [signer|e]; step; [|done].
    by destruct (IdentityClient B signer).
Qed.

Lemma get_compartment_id_returns_signer_compartment_witness :
  (get_compartment_id demo_backend (startup w0)).1 = Ret "ocid1.compartment.oc1..demo"
  ∧ (get_compartment_id failing_backend (startup w0)).1 = Raise service_error
  ∧ (get_compartment_id refusing_backend (startup w0)).1 = Raise service_error.
Proof.
  split_and!.
  - apply (proj1 (get_compartment_id_returns_signer_compartment demo_backend (startup w0))
             demo_signer Oci.IdentityClient_obj); reflexivity.
  - apply (proj1 (proj2 (get_compartment_id_returns_signer_compartment
                           failing_backend (startup w0)))); reflexivity.
  - apply (proj1 (proj2 (proj2 (get_compartment_id_returns_signer_compartment
                                  refusing_backend (startup w0)))) demo_signer); reflexivity.
Defined.

(** ** The frame: the authentication mode *)

Lemma keeps_auth_ret {A} (a : A) : keeps_auth (mret a).
Proof. by intros w. Qed.

Lemma keeps_auth_bind {A C} (m : M A) (k : A → M C) :
  keeps_auth m → (∀ a, keeps_auth (k a)) → keeps_auth (m ≫= k).
Proof.
  intros Hm Hk w. specialize (Hm w). unfold mbind, M_bind.
  destruct (m w) as [[a|e] w1]; simpl in *; [|done]. by rewrite Hk.
Qed.

Lemma keeps_auth_try_except {A} (body : M A) (handler : exn → M A) :
  keeps_auth body → (∀ e, keeps_auth (handler e)) → keeps_auth (try_except body handler).
Proof.
  intros Hb Hh w. specialize (Hb w). unfold try_except.
  destruct (body w) as [[a|e] w1]; simpl in *; [done|]. by rewrite Hh.
Qed.

Lemma keeps_auth_raise {A} e : keeps_auth (raise (A := A) e).
Proof. by intros w. Qed.

Lemma keeps_auth_lift {A} (r : result A) : keeps_auth (lift r).
Proof. by intros w. Qed.

Lemma keeps_auth_sdk {A} c (resp : result A) : keeps_auth (sdk c resp).
Proof. by intros w. Qed.

Lemma keeps_auth_ads {A} c (resp : option string → result A) : keeps_auth (ads c resp).
Proof. by intros w. Qed.

Lemma keeps_auth_print line : keeps_auth (print line).
Proof. by intros w. Qed.

Lemma keeps_auth_logger_info msg : keeps_auth (logger_info msg).
Proof. by intros w. Qed.

Create HintDb frame.

#[local] Hint Resolve keeps_auth_ret keeps_auth_bind keeps_auth_try_except keeps_auth_raise
  keeps_auth_lift keeps_auth_sdk keeps_auth_ads keeps_auth_print keeps_auth_logger_info
  : frame.

Lemma invoke_keeps_auth B t : keeps_auth (invoke B t).
Proof.
  destruct t; unfold invoke, get_compartment_id, project_count, create_project,
    model_count, list_projects, create_notebook_session; auto 20 with frame.
Qed.

Lemma serve_keeps_auth reqs w : ads_auth (serve reqs w) = ads_auth w.
Proof.
  revert w. induction reqs as [|[B t] reqs IH]; intros w; simpl; [done|].
  rewrite IH. apply invoke_keeps_auth.
Qed.

(** C9: no tool invocation, returning or raising, changes the
    authentication mode of the process; after the start-up has
    selected the resource principal, it stays selected through any
    sequence of tool invocations. *)
Theorem tool_invocations_keep_auth :
  (∀ B t w, ads_auth (invoke B t w).2 = ads_auth w)
  ∧ (∀ reqs w, ads_auth (serve reqs (startup w)) = Some "resource_principal").
Proof.
  split.
  - intros B t w. apply invoke_keeps_auth.
  - intros reqs w. by rewrite serve_keeps_auth.
Qed.

(** ** The failure policy *)

(** Every run of a tool is a sequence of answered SDK calls, ended by
    the tool returning, by one more SDK call that raises, or, in
    [model_count] and [list_projects], by [len] of a listing that is
    [None]; in the last two cases the tool raises that exception,
    after printing the line of its [except] clause. *)
Lemma invoke_outcome B t w :
  ∃ evs, calls (invoke B t w).2 = calls w ++ evs
    ∧ stderr (invoke B t w).2 = stderr w ++ entry_records t
    ∧ match (invoke B t w).1 with
      | Ret _ => Forall answered evs ∧ stdout (invoke B t w).2 = stdout w
      | Raise e =>
          ((∃ evs0 c, evs = evs0 ++ [{| ev_call := c; ev_raised := Some e |}]
                      ∧ Forall answered evs0)
           ∨ (e = no_len ∧ Forall answered evs ∧ takes_len t))
          ∧ stdout (invoke B t w).2 = stdout w ++ diagnostic t e
      end.
Proof.
  destruct t as [|c|n d c|c|c|p c d]; step.
  - destruct (get_resource_principals_signer B) as [signer|e]; [|close_outcome].
    step. destruct (IdentityClient B signer); close_outcome.
  - destruct (ProjectCatalog B (ads_auth w) c) as [cat|e]; [|close_outcome].
    step. destruct (Ads.list_projects cat) as [ps|e]; [|close_outcome].
    step. destruct (Ads.len cat); close_outcome.
  - destruct (ProjectCatalog B (ads_auth w) c) as [cat|e]; [|close_outcome].
    step. destruct (Ads.create_project cat n d c) as [res|e]; [|close_outcome].
    step. destruct (Ads.to_dataframe res); close_outcome.
  - destruct (ModelCatalog B (ads_auth w) c) as [cat|e]; [|close_outcome].
    step. destruct (Ads.list_models cat) as [[ms|]|e]; close_outcome.
  - destruct (ProjectCatalog B (ads_auth w) c) as [cat|e]; [|close_outcome].
    step. destruct (Ads.list_projects cat) as [[ps|]|e]; [|close_outcome..].
    step. rewrite list_projects_loop_all. step. cbn [project_id project_name project_desc].
    destruct (projects_frame_records ps) as (df & -> & _). close_outcome.
  - destruct (get_resource_principals_signer B) as [signer|e]; [|close_outcome].
    step. destruct (DataScienceClient B signer) as [client|e]; [|close_outcome].
    step. destruct (Oci.create_notebook_session client _); close_outcome.
Qed.

(** C1, as amended: when an SDK call made by [project_count],
    [create_project], [model_count], [list_projects] or
    [create_notebook_session] raises an exception, the tool raises
    that same exception to its caller after printing exactly one
    line, which ends with the exception's message; the line goes to
    standard output, and the [except] clause hands nothing to the
    logger.  [get_compartment_id] lets the exception through as well
    and prints nothing. *)
Theorem sdk_failure_printed_and_reraised B t w ev e :
  ev ∈ drop (length (calls w)) (calls (invoke B t w).2) →
  ev_raised ev = Some e →
  (invoke B t w).1 = Raise e
  ∧ stderr (invoke B t w).2 = stderr w ++ entry_records t
  ∧ match t with
    | GetCompartmentId => stdout (invoke B t w).2 = stdout w
    | _ => ∃ prefix, stdout (invoke B t w).2 = stdout w ++ [prefix +:+ exc_str e]
    end.
Proof.
  intros Hin Hraised.
  destruct (invoke_outcome B t w) as (evs & Hcalls & Hstderr & Hout).
  rewrite Hcalls, drop_app_length in Hin.
  destruct (invoke B t w).1 as [v|e'].
  - destruct Hout as [Hok _]. rewrite Forall_forall in Hok.
    specialize (Hok ev Hin). unfold answered in Hok. congruence.
  - destruct Hout as [[(evs0 & c & -> & Hok)|(_ & Hok & _)] Hstdout].
    + apply elem_of_app in Hin as [Hin|Hin].
      * rewrite Forall_forall in Hok. specialize (Hok ev Hin).
        unfold answered in Hok. congruence.
      * apply list_elem_of_singleton in Hin. subst ev. simpl in Hraised.
        injection Hraised as ->. split; [done|]. split; [done|].
        destruct t; simpl in Hstdout; rewrite ?app_nil_r in Hstdout; eauto.
    + rewrite Forall_forall in Hok. specialize (Hok ev Hin).
      unfold answered in Hok. congruence.
Qed.

Lemma sdk_failure_printed_and_reraised_witness :
  (invoke failing_backend (CreateProject "X" "Y" "C") w0).1 = Raise service_error
  ∧ stderr (invoke failing_backend (CreateProject "X" "Y" "C") w0).2 = []
  ∧ ∃ prefix, stdout (invoke failing_backend (CreateProject "X" "Y" "C") w0).2
              = [prefix +:+ "NotAuthorizedOrNotFound"].
Proof.
  apply (sdk_failure_printed_and_reraised failing_backend (CreateProject "X" "Y" "C") w0
           {| ev_call := Call_ProjectCatalog "C"; ev_raised := Some service_error |}
           service_error).
  - simpl. left.
  - reflexivity.
Defined.

(** C1, as stated, fails: with a signer that cannot be obtained,
    [get_compartment_id] raises without emitting any line; and the one
    line [create_project] emits on a failure is on standard output,
    none on standard error. *)
Lemma diagnostic_on_stderr_counterexample :
  (invoke failing_backend GetCompartmentId (startup w0)).1 = Raise service_error
  ∧ stdout (invoke failing_backend GetCompartmentId (startup w0)).2 = []
  ∧ stderr (invoke failing_backend GetCompartmentId (startup w0)).2 = []
  ∧ (invoke failing_backend (CreateProject "X" "Y" "C") (startup w0)).1 = Raise service_error
  ∧ stderr (invoke failing_backend (CreateProject "X" "Y" "C") (startup w0)).2 = []
  ∧ stdout (invoke failing_backend (CreateProject "X" "Y" "C") (startup w0)).2
    = ["Error getting project count: NotAuthorizedOrNotFound"].
Proof. by split_and!. Qed.

(** ** What a run adds to the trace *)

Lemma calls_since_app w w' evs : calls w' = calls w ++ evs → calls_since w w' = evs.
Proof. intros Heq. unfold calls_since. by rewrite Heq, drop_app_length. Qed.

Lemma logged_since_app w w' rs : stderr w' = stderr w ++ rs → logged_since w w' = rs.
Proof. intros Heq. unfold logged_since. by rewrite Heq, drop_app_length. Qed.

(** X1: where the exception of a tool comes from: when a tool raises
    [e], either the last SDK call it issued raised [e] and every
    earlier call was answered, or the tool is [model_count] or
    [list_projects], every SDK call was answered, and [e] is the
    [TypeError] of [len] on a listing that is [None].  The indexing
    and the frame of [list_projects] never raise. *)
Theorem tool_exception_origin B t w e :
  (invoke B t w).1 = Raise e →
  (∃ earlier c,
     calls_since w (invoke B t w).2 = earlier ++ [{| ev_call := c; ev_raised := Some e |}]
     ∧ Forall answered earlier)
  ∨ (e = no_len ∧ Forall answered (calls_since w (invoke B t w).2) ∧ takes_len t).
Proof.
  intros Hraise.
  destruct (invoke_outcome B t w) as (evs & Hcalls & _ & Hout).
  rewrite Hraise in Hout. rewrite (calls_since_app _ _ _ Hcalls).
  destruct Hout as [[(earlier & c & -> & Hok)|Hown] _]; [left|by right].
  by exists earlier, c.
Qed.

Lemma tool_exception_origin_witness :
  (∃ earlier c,
     calls_since w0 (invoke (unlistable_backend 5) (ListProjects "c") w0).2
     = earlier ++ [{| ev_call := c; ev_raised := Some service_error |}]
     ∧ Forall answered earlier)
  ∨ (service_error = no_len
     ∧ Forall answered (calls_since w0 (invoke (unlistable_backend 5) (ListProjects "c") w0).2)
     ∧ takes_len (ListProjects "c")).
Proof.
  apply (tool_exception_origin (unlistable_backend 5) (ListProjects "c") w0).
  reflexivity.
Defined.

(** Closes one branch of the count of the calls of a run. *)
Ltac close_count :=
  step;
  refine (ex_intro _ _ (conj _ _));
  [ rewrite <- ?app_assoc; reflexivity
  | simpl; split_and!; [lia|lia|first [done|intros ? [=]]] ].

Lemma invoke_calls_count B t w :
  ∃ evs, calls (invoke B t w).2 = calls w ++ evs
    ∧ 1 ≤ length evs
    ∧ length evs ≤ sdk_calls_on_success t
    ∧ (∀ v, (invoke B t w).1 = Ret v → length evs = sdk_calls_on_success t).
Proof.
  destruct t as [|c|n d c|c|c|p c d]; step.
  - destruct (get_resource_principals_signer B) as [signer|e]; [|close_count].
    step. destruct (IdentityClient B signer); close_count.
  - destruct (ProjectCatalog B (ads_auth w) c) as [cat|e]; [|close_count].
    step. destruct (Ads.list_projects cat) as [ps|e]; [|close_count].
    step. destruct (Ads.len cat); close_count.
  - destruct (ProjectCatalog B (ads_auth w) c) as [cat|e]; [|close_count].
    step. destruct (Ads.create_project cat n d c) as [res|e]; [|close_count].
    step. destruct (Ads.to_dataframe res); close_count.
  - destruct (ModelCatalog B (ads_auth w) c) as [cat|e]; [|close_count].
    step. destruct (Ads.list_models cat) as [[ms|]|e]; close_count.
  - destruct (ProjectCatalog B (ads_auth w) c) as [cat|e]; [|close_count].
    step. destruct (Ads.list_projects cat) as [[ps|]|e]; [|close_count..].
    step. rewrite list_projects_loop_all. step. cbn [project_id project_name project_desc].
    destruct (projects_frame_records ps) as (df & -> & _). close_count.
  - destruct (get_resource_principals_signer B) as [signer|e]; [|close_count].
    step. destruct (DataScienceClient B signer) as [client|e]; [|close_count].
    step. destruct (Oci.create_notebook_session client _); close_count.
Qed.

(** X2: a tool that returns has printed nothing, has had every SDK
    call answered, and has issued the full number of calls of its
    body: two for [get_compartment_id], [model_count] and
    [list_projects], three for the others. *)
Theorem tool_success_is_silent B t w v :
  (invoke B t w).1 = Ret v →
  stdout (invoke B t w).2 = stdout w
  ∧ Forall answered (calls_since w (invoke B t w).2)
  ∧ length (calls_since w (invoke B t w).2) = sdk_calls_on_success t.
Proof.
  intros Hret.
  destruct (invoke_outcome B t w) as (evs & Hcalls & _ & Hout).
  destruct (invoke_calls_count B t w) as (evs' & Hcalls' & _ & _ & Hcount).
  pose proof (calls_since_app _ _ _ Hcalls') as Hevs'.
  rewrite (calls_since_app _ _ _ Hcalls) in Hevs' |- *. subst evs'.
  rewrite Hret in Hout. destruct Hout as [Hok Hstdout]. eauto.
Qed.

Lemma tool_success_is_silent_witness :
  stdout (invoke demo_backend (ProjectCount "c") (startup w0)).2 = []
  ∧ Forall answered (calls_since (startup w0)
                       (invoke demo_backend (ProjectCount "c") (startup w0)).2)
  ∧ length (calls_since (startup w0)
              (invoke demo_backend (ProjectCount "c") (startup w0)).2) = 3.
Proof.
  apply (tool_success_is_silent demo_backend (ProjectCount "c") (startup w0) (OfInt 2)).
  reflexivity.
Defined.

(** X3: no tool retries or loops over the service: every run issues at
    least one SDK call and at most three. *)
Theorem tool_calls_bounded B t w :
  1 ≤ length (calls_since w (invoke B t w).2) ≤ 3.
Proof.
  destruct (invoke_calls_count B t w) as (evs & Hcalls & Hge & Hle & _).
  rewrite (calls_since_app _ _ _ Hcalls). split; [done|].
  etrans; [exact Hle|]. destruct t; simpl; lia.
Qed.

(** X4: [project_count] hands its one INFO record, "calling
    project_count tool successfully", to the logger on every run,
    whether it then returns or raises; no other tool logs anything. *)
Theorem tool_logging_ignores_outcome B t w :
  logged_since w (invoke B t w).2 =
  match t with
  | ProjectCount _ =>
      [{| levelname := "INFO"; message := "calling project_count tool successfully" |}]
  | _ => []
  end.
Proof.
  destruct (invoke_outcome B t w) as (evs & _ & Hstderr & _).
  rewrite (logged_since_app _ _ _ Hstderr). by destruct t.
Qed.

(** ** Creation calls *)

(** X5: when the catalog object cannot be built, [create_project]
    raises the constructor's exception and issues no creation call. *)
Theorem create_project_no_call_without_catalog B n d c w e :
  ProjectCatalog B (ads_auth w) c = Raise e →
  (create_project B n d c w).1 = Raise e
  ∧ List.filter is_create_project (ev_call <$> calls_since w (create_project B n d c w).2) = [].
Proof.
  intros Hcat. unfold calls_since. step. rewrite Hcat. step.
  by rewrite drop_app_length.
Qed.

Lemma create_project_no_call_without_catalog_witness :
  (create_project failing_backend "X" "Y" "C" w0).1 = Raise service_error
  ∧ List.filter is_create_project
      (ev_call <$> calls_since w0 (create_project failing_backend "X" "Y" "C" w0).2) = [].
Proof.
  apply (create_project_no_call_without_catalog failing_backend "X" "Y" "C" w0 service_error).
  reflexivity.
Defined.

(** X6: [create_project] does not undo a creation: when the service
    has created the project and building its frame raises, the tool
    raises that exception although the creation call was answered. *)
Theorem create_project_fails_after_creation B n d c w cat res e :
  ProjectCatalog B (ads_auth w) c = Ret cat →
  Ads.create_project cat n d c = Ret res →
  Ads.to_dataframe res = Raise e →
  (create_project B n d c w).1 = Raise e
  ∧ {| ev_call := Call_create_project n d c; ev_raised := None |}
      ∈ calls_since w (create_project B n d c w).2
  ∧ last (calls_since w (create_project B n d c w).2)
    = Some {| ev_call := Call_to_dataframe; ev_raised := Some e |}.
Proof.
  intros Hcat Hres Hdf. unfold calls_since.
  step. rewrite Hcat. step. rewrite Hres. step. rewrite Hdf. step.
  rewrite <- !app_assoc, drop_app_length. simpl. split_and!; [done| |done].
  apply list_elem_of_further, list_elem_of_here.
Qed.

Lemma create_project_fails_after_creation_witness :
  (create_project frameless_backend "X" "Y" "C" w0).1 = Raise service_error
  ∧ {| ev_call := Call_create_project "X" "Y" "C"; ev_raised := None |}
      ∈ calls_since w0 (create_project frameless_backend "X" "Y" "C" w0).2
  ∧ last (calls_since w0 (create_project frameless_backend "X" "Y" "C" w0).2)
    = Some {| ev_call := Call_to_dataframe; ev_raised := Some service_error |}.
Proof.
  apply (create_project_fails_after_creation frameless_backend "X" "Y" "C" w0
           {| Ads.list_projects := Ret (Some demo_projects);
              Ads.len := Ret 2;
              Ads.create_project := λ _ _ _,
                Ret {| Ads.to_dataframe := Raise service_error |} |}
           {| Ads.to_dataframe := Raise service_error |} service_error); reflexivity.
Defined.

(** X7: [create_notebook_session] sends a creation request exactly
    when the signer and the client are obtained: a failure of either
    ends the run before anything is requested. *)
Theorem create_notebook_session_request_iff_client B p c d w :
  (∃ signer client,
     get_resource_principals_signer B = Ret signer
     ∧ DataScienceClient B signer = Ret client)
  ↔ List.filter is_create_notebook_session
      (ev_call <$> calls_since w (create_notebook_session B p c d w).2) ≠ [].
Proof.
  destruct (create_notebook_session_calls B p c d w) as (evs & Hcalls & Hevs).
  rewrite (calls_since_app _ _ _ Hcalls).
  destruct (get_resource_principals_signer B) as [signer|e];
    [destruct (DataScienceClient B signer) as [client|e] eqn:Hc|]; subst evs; simpl.
  - split; [done|]. intros _. by exists signer, client.
  - split; [|done]. intros (signer' & client & [= <-] & Hc'). congruence.
  - split; [|done]. by intros (signer & client & [=] & _).
Qed.

(** ** The listing in [project_count] *)

(** X8: although [project_count] never uses the listing, it needs it:
    when [list_projects()] raises, the tool raises that exception and
    the catalog's length is never asked for. *)
Theorem project_count_fails_with_listing B c w cat e :
  ProjectCatalog B (ads_auth w) c = Ret cat →
  Ads.list_projects cat = Raise e →
  (project_count B c w).1 = Raise e
  ∧ Call_len_ProjectCatalog ∉ ev_call <$> calls_since w (project_count B c w).2.
Proof.
  intros Hcat Hps. unfold calls_since. step. rewrite Hcat. step. rewrite Hps. step.
  rewrite <- !app_assoc, drop_app_length. simpl. split; [done|].
  intros Hin. repeat (apply elem_of_cons in Hin as [[=]|Hin]). by apply elem_of_nil in Hin.
Qed.

Lemma project_count_fails_with_listing_witness :
  (project_count (unlistable_backend 5) "c" w0).1 = Raise service_error
  ∧ Call_len_ProjectCatalog
      ∉ ev_call <$> calls_since w0 (project_count (unlistable_backend 5) "c" w0).2.
Proof.
  apply (project_count_fails_with_listing (unlistable_backend 5) "c" w0
           {| Ads.list_projects := Raise service_error;
              Ads.len := Ret 5;
              Ads.create_project := λ _ _ _, Raise service_error |} service_error);
    reflexivity.
Defined.

(** X9: [project_count] and [list_projects] agree on the number of
    projects exactly when the catalog's length agrees with its
    listing. *)
Theorem project_count_agrees_with_list_projects B c w cat (ps : list Ads.ProjectSummary) n :
  ProjectCatalog B (ads_auth w) c = Ret cat →
  Ads.list_projects cat = Ret (Some ps) →
  Ads.len cat = Ret n →
  ∃ l : list (gmap string pyval),
    (list_projects B c w).1 = Ret l
    ∧ ((project_count B c w).1 = Ret (length l) ↔ n = length ps).
Proof.
  intros Hcat Hps Hlen. exists (project_record <$> ps).
  rewrite (list_projects_run _ _ _ _ _ Hcat Hps).
  destruct (project_count_run _ _ _ _ _ _ Hcat Hps Hlen) as (w' & -> & _).
  simpl. rewrite length_fmap. split; [done|]. split; [by intros [=]|by intros ->].
Qed.

Lemma project_count_agrees_with_list_projects_witness :
  ∃ l : list (gmap string pyval),
    (list_projects stale_backend "c" w0).1 = Ret l
    ∧ ((project_count stale_backend "c" w0).1 = Ret (length l) ↔ 0 = length demo_projects).
Proof.
  apply (project_count_agrees_with_list_projects stale_backend "c" w0
           (demo_catalog 0) demo_projects 0); reflexivity.
Defined.

(** ** Sequences of requests *)

Lemma diagnostic_length t e :
  length (diagnostic t e) = if caught_failure (t, Raise e) then 1 else 0.
Proof. by destruct t. Qed.

Lemma invoke_output_lengths B t w :
  length (stdout (invoke B t w).2)
  = length (stdout w) + (if caught_failure (t, (invoke B t w).1) then 1 else 0)
  ∧ length (stderr (invoke B t w).2)
    = length (stderr w) + (if is_project_count (t, (invoke B t w).1) then 1 else 0).
Proof.
  destruct (invoke_outcome B t w) as (evs & _ & Hstderr & Hout). split.
  - destruct (invoke B t w).1 as [v|e].
    + destruct Hout as [_ ->]. destruct t; simpl; lia.
    + destruct Hout as [_ ->]. rewrite length_app. f_equal. apply diagnostic_length.
  - rewrite Hstderr, length_app. by destruct t.
Qed.

(** X10: over any sequence of requests, the lines printed are as many
    as the requests that ended in an [except] clause, and the records
    logged as many as the requests for [project_count]. *)
Theorem serve_output_counts reqs w :
  length (stdout (serve reqs w))
  = length (stdout w) + length (List.filter caught_failure (serve_outcomes reqs w))
  ∧ length (stderr (serve reqs w))
    = length (stderr w) + length (List.filter is_project_count (serve_outcomes reqs w)).
Proof.
  revert w. induction reqs as [|[B t] reqs IH]; intros w; [simpl; lia|].
  destruct (IH (invoke B t w).2) as [IHout IHerr].
  destruct (invoke_output_lengths B t w) as [Hout Herr].
  cbn [serve serve_outcomes List.filter]. rewrite IHout, IHerr, Hout, Herr.
  split.
  - destruct (caught_failure _); simpl; lia.
  - destruct (is_project_count _); simpl; lia.
Qed.

(** ** What the output tells *)

(** X12: the line printed for a failure does not tell [project_count]
    from [create_project]: for the same exception both print
    "Error getting project count: " followed by its message. *)
Theorem failure_line_shared B1 B2 c1 n d c2 w1 w2 e :
  (invoke B1 (ProjectCount c1) w1).1 = Raise e →
  (invoke B2 (CreateProject n d c2) w2).1 = Raise e →
  last (stdout (invoke B1 (ProjectCount c1) w1).2)
  = Some ("Error getting project count: " +:+ exc_str e)
  ∧ last (stdout (invoke B2 (CreateProject n d c2) w2).2)
    = Some ("Error getting project count: " +:+ exc_str e).
Proof.
  intros H1 H2.
  destruct (invoke_outcome B1 (ProjectCount c1) w1) as (? & _ & _ & Hout1).
  destruct (invoke_outcome B2 (CreateProject n d c2) w2) as (? & _ & _ & Hout2).
  rewrite H1 in Hout1. rewrite H2 in Hout2.
  destruct Hout1 as [_ ->]. destruct Hout2 as [_ ->].
  split; apply last_snoc.
Qed.

Lemma failure_line_shared_witness :
  last (stdout (invoke failing_backend (ProjectCount "c") w0).2)
  = Some ("Error getting project count: " +:+ "NotAuthorizedOrNotFound")
  ∧ last (stdout (invoke failing_backend (CreateProject "X" "Y" "c") w0).2)
    = Some ("Error getting project count: " +:+ "NotAuthorizedOrNotFound").
Proof.
  apply (failure_line_shared failing_backend failing_backend "c" "X" "Y" "c" w0 w0
           service_error); reflexivity.
Defined.

(** X13: the helpers [log_request] and [log_response] are never
    called: no record a tool logs is one that either helper would
    log, whatever the tool name and text given to it. *)
Theorem tools_never_log_requests B t w name text w1 r :
  r ∈ logged_since w (invoke B t w).2 →
  (r ∉ logged_since w1 (log_request name text w1).2)
  ∧ (r ∉ logged_since w1 (log_response name text w1).2).
Proof.
  destruct (invoke_outcome B t w) as (evs & _ & Hstderr & _).
  rewrite (logged_since_app _ _ _ Hstderr).
  unfold logged_since, log_request, log_response, logger_info. simpl.
  rewrite !drop_app_length.
  destruct t; simpl; intros Hin; try by apply elem_of_nil in Hin.
  apply list_elem_of_singleton in Hin. subst r.
  split; intros Hin; by apply list_elem_of_singleton in Hin.
Qed.

Lemma tools_never_log_requests_witness :
  ({| levelname := "INFO"; message := "calling project_count tool successfully" |}
     ∉ logged_since w0 (log_request "project_count" "2" w0).2)
  ∧ ({| levelname := "INFO"; message := "calling project_count tool successfully" |}
       ∉ logged_since w0 (log_response "project_count" "2" w0).2).
Proof.
  apply (tools_never_log_requests demo_backend (ProjectCount "c") w0).
  simpl. left.
Defined.

(** X14: the compartment identifier is not checked, defaulted or
    replaced: the first SDK call of [project_count], [create_project]
    and [list_projects] builds the project catalog for exactly the
    identifier given, that of [model_count] the model catalog; the
    other two tools start by asking for the signer. *)
Theorem tool_first_call B t w :
  head (ev_call <$> calls_since w (invoke B t w).2) =
  Some match t with
       | ProjectCount c | CreateProject _ _ c | ListProjects c => Call_ProjectCatalog c
       | ModelCount c => Call_ModelCatalog c
       | GetCompartmentId | CreateNotebookSession _ _ _ => Call_get_resource_principals_signer
       end.
Proof.
  destruct (invoke_outcome B t w) as (evs & Hcalls & _).
  rewrite (calls_since_app _ _ _ Hcalls). revert Hcalls.
  destruct t as [|c|n d c|c|c|p c d]; step.
  - destruct (get_resource_principals_signer B) as [signer|e] eqn:Hs; step;
      [destruct (IdentityClient B signer); step|];
      rewrite <- ?app_assoc; by intros <-%app_inv_head.
  - destruct (ProjectCatalog B (ads_auth w) c) as [cat|e]; step;
      [destruct (Ads.list_projects cat); step; [destruct (Ads.len cat); step|]|];
      rewrite <- ?app_assoc; by intros <-%app_inv_head.
  - destruct (ProjectCatalog B (ads_auth w) c) as [cat|e]; step;
      [destruct (Ads.create_project cat n d c) as [res|e]; step;
       [destruct (Ads.to_dataframe res); step|]|];
      rewrite <- ?app_assoc; by intros <-%app_inv_head.
  - destruct (ModelCatalog B (ads_auth w) c) as [cat|e]; step;
      [destruct (Ads.list_models cat) as [[ms|]|e]; step|];
      rewrite <- ?app_assoc; by intros <-%app_inv_head.
  - destruct (ProjectCatalog B (ads_auth w) c) as [cat|e]; step;
      [destruct (Ads.list_projects cat) as [[ps|]|e]; step|];
      rewrite ?list_projects_loop_all; step; cbn [project_id project_name project_desc];
      try destruct (projects_frame_records ps) as (df & -> & _); step;
      rewrite <- ?app_assoc; by intros <-%app_inv_head.
  - destruct (get_resource_principals_signer B) as [signer|e]; step;
      [destruct (DataScienceClient B signer) as [client|e]; step;
       [destruct (Oci.create_notebook_session client _); step|]|];
      rewrite <- ?app_assoc; by intros <-%app_inv_head.
Qed.

(** ** Statelessness *)

Ltac same_response :=
  match goal with
  | |- context [match ?r with Ret _ => _ | Raise _ => _ end] => destruct r
  end; step.

Lemma invoke_result_of_auth B t w1 w2 :
  ads_auth w1 = ads_auth w2 → (invoke B t w1).1 = (invoke B t w2).1.
Proof.
  intros Hauth. destruct t; step; rewrite <- ?Hauth; repeat same_response; reflexivity.
Qed.

(** X15: the tools keep no state between requests: what a tool
    returns or raises after any sequence of earlier requests is what
    it returns or raises right after the start-up, the backend
    answering alike. *)
Theorem tool_result_ignores_history reqs B t w :
  (invoke B t (serve reqs (startup w))).1 = (invoke B t (startup w0)).1.
Proof. apply invoke_result_of_auth. by rewrite serve_keeps_auth. Qed.
